(** * esindex_exporter: the tick of the index-existence exporter

    A shallow embedding of [main.go] (the version with the daily time
    window): flag validation, [parseTime], [checkIndexExists], the body of
    the ticker loop and the gauge it writes, followed by the properties of
    the exported metric. *)

From Stdlib Require Import ZArith Lia List Ascii String Floats.
From stdpp Require Import base strings gmap.

Local Open Scope Z_scope.

(** ** The parts of Go's [time] package that [main.go] calls *)

Module GoTime.

(** What [time.Now()] shows through [Format]: the local date and the
    clock of the instant.  Seconds are never formatted by [main.go]. *)
Record WallClock := mkClock {
  year : Z; month : Z; day : Z; hour : Z; minute : Z
}.

(** A [time.Time] produced by [time.Parse("15:04", _)]: the date is
    always 0000-01-01 UTC, so the instant is kept as the number of
    seconds since that midnight. *)
Definition Time := Z.

Definition Before (t u : Time) : bool := t <? u.
Definition After (t u : Time) : bool := u <? t.

Definition digitChar (d : Z) : ascii := ascii_of_nat (48 + Z.to_nat d).

(** The loop of [appendInt] that assembles the decimal digits in a
    20-byte buffer, least significant digit first. *)
Fixpoint utoa (fuel : nat) (u : Z) (buf : string) : string :=
  match fuel with
  | O => buf
  | S fuel' =>
      if 10 <=? u
      then utoa fuel' (u / 10) (String (digitChar (u mod 10)) buf)
      else String (digitChar u) buf
  end.

Fixpoint zeros (n : nat) : string :=
  match n with
  | O => EmptyString
  | S n' => String "0" (zeros n')
  end.

(** [appendInt b x width]: a sign for a negative [x], then the decimal
    form padded with leading zeros up to [width] digits. *)
Definition formatInt (x : Z) (width : nat) : string :=
  let sign := if x <? 0 then "-"%string else EmptyString in
  let ds := utoa 20 (Z.abs x) EmptyString in
  sign +:+ zeros (width - String.length ds) +:+ ds.

Definition appendInt (b : string) (x : Z) (width : nat) : string :=
  b +:+ formatInt x width.

(** [t.Format("15:04")] *)
Definition Format_15_04 (c : WallClock) : string :=
  appendInt (appendInt EmptyString (hour c) 2 +:+ ":") (minute c) 2.

(** [t.Format("2006.01.02")] *)
Definition Format_2006_01_02 (c : WallClock) : string :=
  appendInt
    (appendInt (appendInt EmptyString (year c) 4 +:+ ".") (month c) 2 +:+ ".")
    (day c) 2.

Definition isDigit (c : ascii) : bool :=
  let n := nat_of_ascii c in (48 <=? n)%nat && (n <=? 57)%nat.

Definition digitVal (c : ascii) : Z := Z.of_nat (nat_of_ascii c) - 48.

(** [getnum s fixed]: one or two leading digits; with [fixed] exactly
    two are required. *)
Definition getnum (s : string) (fixed : bool) : option (Z * string) :=
  match s with
  | EmptyString => None
  | String c0 s1 =>
      if isDigit c0 then
        match s1 with
        | String c1 s2 =>
            if isDigit c1 then Some (digitVal c0 * 10 + digitVal c1, s2)
            else if fixed then None else Some (digitVal c0, s1)
        | EmptyString => if fixed then None else Some (digitVal c0, s1)
        end
      else None
  end.

(** [time.Parse("15:04", value)]: an hour of one or two digits below
    24, a colon, a minute of exactly two digits below 60, and nothing
    after it.  [None] stands for every error. *)
Definition Parse_15_04 (value : string) : option Time :=
  match getnum value false with
  | None => None
  | Some (h, v1) =>
      if (h <? 0) || (24 <=? h) then None
      else match v1 with
           | String ":" v2 =>
               match getnum v2 true with
               | None => None
               | Some (m, v3) =>
                   if (m <? 0) || (60 <=? m) then None
                   else match v3 with
                        | EmptyString => Some (h * 3600 + m * 60)
                        | String _ _ => None
                        end
               end
           | _ => None
           end
  end.

(** The decimal digits of a number below 100, and of one below 10000,
    written out. *)
Definition twoDigits (x : Z) : string :=
  String (digitChar (x / 10)) (String (digitChar (x mod 10)) EmptyString).

Definition fourDigits (x : Z) : string :=
  String (digitChar (x / 1000))
    (String (digitChar (x / 100 mod 10))
       (String (digitChar (x / 10 mod 10))
          (String (digitChar (x mod 10)) EmptyString))).

(** [time.NewTicker d] panics unless [d] is positive. *)
Definition NewTicker (d : Z) : option Z :=
  if 0 <? d then Some d else None.

End GoTime.

(** ** The exporter *)

Module Exporter.
Import GoTime.

(** A Go [(value, error)] result where only one side is meaningful. *)
Inductive result (A : Type) :=
| Ok (v : A)
| Err (msg : string).
Arguments Ok {A} v.
Arguments Err {A} msg.

(** The command-line flags, with the defaults of the [flag] calls. *)
Record Flags := mkFlags {
  esURI : string;
  esIndexPrefix : string;
  queryInterval : Z;
  listenPort : Z;
  startTimeStr : string;
  endTimeStr : string;
  timeoutStr : string
}.

Definition defaultFlags : Flags :=
  mkFlags "" "" 10 9184 "09:00" "18:00" "5s".

Definition parseTime (timeStr : string) : result Time :=
  match Parse_15_04 timeStr with
  | None => Err ("invalid time format: " +:+ timeStr)
  | Some t => Ok t
  end.

(** What [req.Do] hands back when it returns: a transport error (a dial
    timeout is one), or a response with its status code.  A request that
    never returns is an input of [Process.tick] below. *)
Inductive DoResult :=
| DoError (err : string)
| DoResponse (StatusCode : Z).

(** [checkIndexExists], as Go's pair [(bool, error)]. *)
Definition checkIndexExists (r : DoResult) : bool * option string :=
  match r with
  | DoError err => (false, Some ("failed to query index existence: " +:+ err))
  | DoResponse StatusCode =>
      if StatusCode =? 404 then (false, None) else (true, None)
  end.

(** The three outcomes a caller can tell apart in that pair. *)
Inductive CheckOutcome :=
| Exists
| NotExists
| Failed (err : string).

Definition outcome (r : bool * option string) : CheckOutcome :=
  match r with
  | (_, Some err) => Failed err
  | (true, None) => Exists
  | (false, None) => NotExists
  end.

(** *** Start-up, up to the creation of the ticker *)

(** The answers of the collaborators [main] consults before the loop:
    [url.Parse], [time.ParseDuration], [elasticsearch.NewClient] (an
    error message when they fail) and [client.Ping]. *)
Record Collaborators := mkCollab {
  urlParse : option string;
  parseDuration : option string;
  newClient : option string;
  ping : DoResult
}.

(** [res.IsError()] of the esapi response. *)
Definition IsError (StatusCode : Z) : bool := 299 <? StatusCode.

(** The value an [int64] keeps of a product: [time.Duration(n) * time.Second]
    wraps around. *)
Definition wrap64 (z : Z) : Z := (z + 2 ^ 63) mod 2 ^ 64 - 2 ^ 63.

(** How start-up ends: [os.Exit(1)] after the usage message, a
    [log.Fatalf], the panic of [time.NewTicker], or the loop running. *)
Inductive Startup :=
| ExitUsage
| Fatal (msg : string)
| TickerPanic
| Running (startTime endTime : Time) (d : Z).

(** The guard at the top of [main]: [true] when the process prints
    "Error: All parameters are required." and exits with status 1. *)
Definition missingParameter (f : Flags) : bool :=
  String.eqb (esURI f) "" || String.eqb (esIndexPrefix f) ""
  || (queryInterval f =? 0).

(** [main] from [flag.Parse] to [time.NewTicker], in the order of the
    source.  [printAllIndexes] only logs.  Two things are left out: the
    text of the response that [log.Fatalf] appends after a ping answered
    with an error status, and the [log.Fatalf] of the metrics server
    goroutine when it cannot listen on its port. *)
Definition main_startup (f : Flags) (env : Collaborators) : Startup :=
  if missingParameter f then ExitUsage
  else
    match parseTime (startTimeStr f) with
    | Err e => Fatal ("Error parsing start time: " +:+ e)
    | Ok startTime =>
    match parseTime (endTimeStr f) with
    | Err e => Fatal ("Error parsing end time: " +:+ e)
    | Ok endTime =>
    match urlParse env with
    | Some e => Fatal ("Error parsing Elasticsearch URI: " +:+ e)
    | None =>
    match parseDuration env with
    | Some e => Fatal ("Error parsing timeout: " +:+ e)
    | None =>
    match newClient env with
    | Some e => Fatal ("Error creating the client: " +:+ e)
    | None =>
    match ping env with
    | DoError e => Fatal ("Error pinging Elasticsearch cluster: " +:+ e)
    | DoResponse StatusCode =>
        if IsError StatusCode
        then Fatal "Elasticsearch cluster returned an error"
        else
          match NewTicker (wrap64 (queryInterval f * 1000000000)) with
          | None => TickerPanic
          | Some d => Running startTime endTime d
          end
    end end end end end end.

(** *** The loop *)

(** [indexExistsGauge]: one float per value of the [index_name] label.
    This is the write as the registry performs it on a label it accepts;
    [Process.WithLabelValues_Set] below adds the panic of
    [WithLabelValues] on a label that is not valid UTF-8. *)
Definition WithLabelValues_Set
    (g : gmap string float) (label : string) (v : float) : gmap string float :=
  <[label := v]> g.

(** What one tick reads from outside: the clock and the answer of the
    store to the existence request, should it be sent. *)
Record TickInput := mkTick {
  currentTime : WallClock;
  response : DoResult
}.

Definition indexName (prefix : string) (currentTime : WallClock) : string :=
  prefix +:+ Format_2006_01_02 currentTime.

(** The condition of the first branch of the loop body. *)
Definition outsideWindow (currentParsedTime startTime endTime : Time) : bool :=
  Before currentParsedTime startTime || After currentParsedTime endTime.

(** The window test: the [else] branch is taken. *)
Definition InWindow (now startTime endTime : Time) : bool :=
  negb (outsideWindow now startTime endTime).

Section Loop.
Variable prefix : string.
Variables startTime endTime : Time.

(** The body of [case <-ticker.C]; a [continue] returns the gauge as
    it was. *)
Definition tick (g : gmap string float) (i : TickInput) : gmap string float :=
  let currentTimeString := Format_15_04 (currentTime i) in
  match parseTime currentTimeString with
  | Err _ => g
  | Ok currentParsedTime =>
      let name := indexName prefix (currentTime i) in
      match checkIndexExists (response i) with
      | (_, Some _) => g
      | (indexExists, None) =>
          if outsideWindow currentParsedTime startTime endTime
          then WithLabelValues_Set g name 1
          else if indexExists
               then WithLabelValues_Set g name 1
               else WithLabelValues_Set g name 0
      end
  end.

(** The loop over the ticks that have fired so far. *)
Definition run (g : gmap string float) (ticks : list TickInput) : gmap string float :=
  fold_left tick ticks g.

End Loop.

(** The seconds since midnight of a clock reading, at minute precision. *)
Definition timeOfDay (c : WallClock) : Time := hour c * 3600 + minute c * 60.

Definition validClock (c : WallClock) : Prop :=
  0 <= hour c < 24 /\ 0 <= minute c < 60.

(** A date as [time.Now()] can show it with a four-digit year. *)
Definition validDate (c : WallClock) : Prop :=
  0 <= year c <= 9999 /\ 1 <= month c <= 12 /\ 1 <= day c <= 31.

End Exporter.

(** ** The loop together with what it logs *)

Module ExporterLog.
Import GoTime Exporter.

(** The body of [case <-ticker.C] with the message of its [log.Printf]
    calls (without the time stamp the logger puts in front): one line
    before each [continue], none when the gauge is set. *)
Definition tick (prefix : string) (startTime endTime : Time)
    (g : gmap string float) (i : TickInput) : gmap string float * list string :=
  let currentTimeString := Format_15_04 (currentTime i) in
  match parseTime currentTimeString with
  | Err err => (g, ("Error parsing current time: " +:+ err) :: nil)
  | Ok currentParsedTime =>
      let name := indexName prefix (currentTime i) in
      match checkIndexExists (response i) with
      | (_, Some err) => (g, ("Error checking index: " +:+ err) :: nil)
      | (indexExists, None) =>
          if outsideWindow currentParsedTime startTime endTime
          then (WithLabelValues_Set g name 1, nil)
          else if indexExists
               then (WithLabelValues_Set g name 1, nil)
               else (WithLabelValues_Set g name 0, nil)
      end
  end.

(** The loop over the ticks fired so far: the gauge and the log, oldest
    line first. *)
Fixpoint run (prefix : string) (startTime endTime : Time)
    (g : gmap string float) (ticks : list TickInput)
  : gmap string float * list string :=
  match ticks with
  | nil => (g, nil)
  | i :: rest =>
      let '(g1, lines) := tick prefix startTime endTime g i in
      let '(g2, more) := run prefix startTime endTime g1 rest in
      (g2, lines ++ more)
  end.

(** [err == nil] after [checkIndexExists]. *)
Definition succeeded (i : TickInput) : bool :=
  match snd (checkIndexExists (response i)) with
  | None => true
  | Some _ => false
  end.

End ExporterLog.

(** ** The first version of [main.go], without the time window *)

Module FirstVersion.
Import GoTime Exporter.

(** How its start-up ends; there is no window to carry into the loop. *)
Inductive Startup :=
| ExitUsage
| Fatal (msg : string)
| TickerPanic
| Running (d : Z).

(** The four flags this version declares.  A command line carrying any
    other flag ([-start-time], [-end-time], [-timeout]) ends inside
    [flag.Parse], with status 2, before anything below runs. *)
Record Flags := mkFlags {
  esURI : string;
  esIndexPrefix : string;
  queryInterval : Z;
  listenPort : Z
}.

(** The collaborators this version consults before its loop: [url.Parse]
    and [elasticsearch.NewClient].  The store is not pinged, and
    [printAllIndexes] logs a failure and returns. *)
Record Collaborators := mkCollab {
  urlParse : option string;
  newClient : option string
}.

(** [main] up to [time.NewTicker]. *)
Definition main_startup (f : Flags) (env : Collaborators) : Startup :=
  if String.eqb (esURI f) "" || String.eqb (esIndexPrefix f) ""
     || (queryInterval f =? 0)
  then ExitUsage
  else
    match urlParse env with
    | Some e => Fatal ("Error parsing Elasticsearch URI: " +:+ e)
    | None =>
    match newClient env with
    | Some e => Fatal ("Error creating the client: " +:+ e)
    | None =>
        match NewTicker (wrap64 (queryInterval f * 1000000000)) with
        | None => TickerPanic
        | Some d => Running d
        end
    end end.

(** The body of [case <-ticker.C]. *)
Definition tick (prefix : string)
    (g : gmap string float) (i : TickInput) : gmap string float :=
  let today := Format_2006_01_02 (currentTime i) in
  let name := prefix +:+ today in
  match checkIndexExists (response i) with
  | (_, Some _) => g
  | (indexExists, None) =>
      if indexExists
      then WithLabelValues_Set g name 1
      else WithLabelValues_Set g name 0
  end.

Definition run (prefix : string)
    (g : gmap string float) (ticks : list TickInput) : gmap string float :=
  fold_left (tick prefix) ticks g.

End FirstVersion.

(** ** Valid UTF-8, as [unicode/utf8] decides it *)

Module GoUTF8.

Definition inRange (lo hi : nat) (c : ascii) : bool :=
  let n := nat_of_ascii c in (lo <=? n)%nat && (n <=? hi)%nat.

(** A continuation byte, 0x80 to 0xBF. *)
Definition continuation (c : ascii) : bool := inRange 128 191 c.

(** The second byte allowed after the first byte of a three-byte
    sequence: 0xE0 excludes overlong forms, 0xED the surrogates. *)
Definition second3 (c0 c1 : ascii) : bool :=
  if (nat_of_ascii c0 =? 224)%nat then inRange 160 191 c1
  else if (nat_of_ascii c0 =? 237)%nat then inRange 128 159 c1
  else continuation c1.

(** The second byte allowed after the first byte of a four-byte
    sequence: 0xF0 excludes overlong forms, 0xF4 what lies beyond
    U+10FFFF. *)
Definition second4 (c0 c1 : ascii) : bool :=
  if (nat_of_ascii c0 =? 240)%nat then inRange 144 191 c1
  else if (nat_of_ascii c0 =? 244)%nat then inRange 128 143 c1
  else continuation c1.

(** [utf8.ValidString]: the bytes are a sequence of well-formed encodings,
    of one byte (below 0x80), two (first byte 0xC2..0xDF), three
    (0xE0..0xEF) or four (0xF0..0xF4). *)
Fixpoint ValidString (s : string) : bool :=
  match s with
  | EmptyString => true
  | String c0 s1 =>
      if (nat_of_ascii c0 <? 128)%nat then ValidString s1
      else
        match s1 with
        | EmptyString => false
        | String c1 s2 =>
            if inRange 194 223 c0 then continuation c1 && ValidString s2
            else
              match s2 with
              | EmptyString => false
              | String c2 s3 =>
                  if inRange 224 239 c0
                  then second3 c0 c1 && continuation c2 && ValidString s3
                  else
                    match s3 with
                    | EmptyString => false
                    | String c3 s4 =>
                        inRange 240 244 c0 && second4 c0 c1
                        && continuation c2 && continuation c3
                        && ValidString s4
                    end
              end
        end
  end.

End GoUTF8.

(** ** The tick as the process runs it *)

Module Process.
Import GoTime GoUTF8 Exporter.

(** What one tick meets: the clock, and the request to the store, which
    runs on [context.Background()] behind a transport whose timeout
    bounds the dial only, so that it may never return ([None]). *)
Record TickInput := mkTick {
  currentTime : WallClock;
  request : option DoResult
}.

(** How a tick ends: it reaches the end of the loop body or a
    [continue], with the gauge and the lines it logged; it panics, which
    ends the process; or it never returns. *)
Inductive TickEnd :=
| Continues (g : gmap string float) (lines : list string)
| Panics (label : string)
| Hangs.

(** [indexExistsGauge.WithLabelValues(label).Set(v)]: the registry
    refuses a label value that is not valid UTF-8 and [WithLabelValues]
    panics on the refusal ([None]). *)
Definition WithLabelValues_Set
    (g : gmap string float) (label : string) (v : float)
  : option (gmap string float) :=
  if ValidString label then Some (<[label := v]> g) else None.

Definition publish (g : gmap string float) (label : string) (v : float)
  : TickEnd :=
  match WithLabelValues_Set g label v with
  | Some g' => Continues g' nil
  | None => Panics label
  end.

(** The body of [case <-ticker.C]. *)
Definition tick (prefix : string) (startTime endTime : Time)
    (g : gmap string float) (i : TickInput) : TickEnd :=
  let currentTimeString := Format_15_04 (currentTime i) in
  match parseTime currentTimeString with
  | Err err => Continues g (("Error parsing current time: " +:+ err) :: nil)
  | Ok currentParsedTime =>
      let name := indexName prefix (currentTime i) in
      match request i with
      | None => Hangs
      | Some r =>
          match checkIndexExists r with
          | (_, Some err) =>
              Continues g (("Error checking index: " +:+ err) :: nil)
          | (indexExists, None) =>
              if outsideWindow currentParsedTime startTime endTime
              then publish g name 1
              else if indexExists
                   then publish g name 1
                   else publish g name 0
          end
      end
  end.

(** The loop over the ticks fired so far; it goes no further than a tick
    that panics or never returns. *)
Fixpoint run (prefix : string) (startTime endTime : Time)
    (g : gmap string float) (ticks : list TickInput) : TickEnd :=
  match ticks with
  | nil => Continues g nil
  | i :: rest =>
      match tick prefix startTime endTime g i with
      | Continues g1 lines =>
          match run prefix startTime endTime g1 rest with
          | Continues g2 more => Continues g2 (lines ++ more)
          | Panics label => Panics label
          | Hangs => Hangs
          end
      | Panics label => Panics label
      | Hangs => Hangs
      end
  end.

(** A tick whose request has returned the answer of [i]. *)
Definition returned (i : Exporter.TickInput) : TickInput :=
  mkTick (Exporter.currentTime i) (Some (Exporter.response i)).

End Process.

(** Arithmetic goals with division or remainder by a constant. *)
Ltac div_facts := Z.div_mod_to_equations; lia.

(** ** Sanity checks of the embedding *)

Example Format_15_04_ex :
  GoTime.Format_15_04 (GoTime.mkClock 2025 1 15 9 5) = "09:05"%string.
Proof. reflexivity. Qed.

Example Format_date_ex :
  GoTime.Format_2006_01_02 (GoTime.mkClock 2025 1 15 9 5) = "2025.01.15"%string.
Proof. reflexivity. Qed.

Example Parse_ex :
  GoTime.Parse_15_04 "09:05" = Some 32700 /\
  GoTime.Parse_15_04 "9:05" = Some 32700 /\
  GoTime.Parse_15_04 "24:00" = None /\
  GoTime.Parse_15_04 "09:5" = None /\
  GoTime.Parse_15_04 "09:05:00" = None.
Proof. repeat split; reflexivity. Qed.

Example ValidString_ex :
  GoUTF8.ValidString "logs-2025.01.15" = true /\
  GoUTF8.ValidString (String "195" (String "169" "")) = true /\
  GoUTF8.ValidString (String "226" (String "130" (String "172" ""))) = true /\
  GoUTF8.ValidString (String "240" (String "159" (String "152" (String "128" "")))) = true /\
  GoUTF8.ValidString (String "255" "") = false /\
  GoUTF8.ValidString (String "128" "") = false /\
  GoUTF8.ValidString (String "192" (String "128" "")) = false /\
  GoUTF8.ValidString (String "226" (String "130" "")) = false /\
  GoUTF8.ValidString (String "237" (String "160" (String "128" ""))) = false /\
  GoUTF8.ValidString (String "244" (String "144" (String "128" (String "128" "")))) = false.
Proof. repeat split; reflexivity. Qed.

Example Process_tick_ex :
  Process.tick "logs-" 32400 64800 ∅
    (Process.mkTick (GoTime.mkClock 2025 1 15 10 0) (Some (Exporter.DoResponse 404)))
  = Process.Continues {[ "logs-2025.01.15"%string := 0%float ]} nil.
Proof. reflexivity. Qed.

(** ** Formatting and parsing the clock *)

Import GoTime Exporter.

Lemma utoa_below_10 fuel u buf :
  u < 10 -> utoa (S fuel) u buf = String (digitChar u) buf.
Proof. intros Hu. simpl. now destruct (Z.leb_spec 10 u); [lia|]. Qed.

Lemma utoa_from_10 fuel u buf :
  10 <= u ->
  utoa (S fuel) u buf = utoa fuel (u / 10) (String (digitChar (u mod 10)) buf).
Proof. intros Hu. simpl. now destruct (Z.leb_spec 10 u); [|lia]. Qed.

Lemma formatInt_nonneg x width :
  0 <= x ->
  formatInt x width =
    zeros (width - String.length (utoa 20 x EmptyString)) +:+ utoa 20 x EmptyString.
Proof.
  intros Hx. unfold formatInt.
  destruct (Z.ltb_spec x 0); [lia|]. now rewrite Z.abs_eq by lia.
Qed.

Lemma formatInt_width2 x : 0 <= x < 100 -> formatInt x 2 = twoDigits x.
Proof.
  intros Hx. rewrite formatInt_nonneg by lia. unfold twoDigits.
  destruct (Z.lt_ge_cases x 10) as [Hlt|Hge].
  - rewrite utoa_below_10 by lia.
    replace (x / 10) with 0 by div_facts.
    replace (x mod 10) with x by div_facts. reflexivity.
  - rewrite utoa_from_10 by lia.
    rewrite utoa_below_10 by div_facts. reflexivity.
Qed.

Lemma formatInt_width4 x : 0 <= x < 10000 -> formatInt x 4 = fourDigits x.
Proof.
  intros Hx. rewrite formatInt_nonneg by lia. unfold fourDigits.
  destruct (Z.lt_ge_cases x 10) as [H1|H1];
    [|destruct (Z.lt_ge_cases x 100) as [H2|H2];
      [|destruct (Z.lt_ge_cases x 1000) as [H3|H3]]].
  - rewrite utoa_below_10 by lia.
    replace (x / 1000) with 0 by div_facts.
    replace (x / 100 mod 10) with 0 by div_facts.
    replace (x / 10 mod 10) with 0 by div_facts.
    replace (x mod 10) with x by div_facts. reflexivity.
  - rewrite utoa_from_10 by lia.
    rewrite utoa_below_10 by div_facts.
    replace (x / 1000) with 0 by div_facts.
    replace (x / 100 mod 10) with 0 by div_facts.
    replace (x / 10 mod 10) with (x / 10) by div_facts. reflexivity.
  - rewrite utoa_from_10 by lia.
    rewrite utoa_from_10 by div_facts.
    rewrite utoa_below_10 by div_facts.
    replace (x / 1000) with 0 by div_facts.
    replace (x / 100 mod 10) with (x / 10 / 10) by div_facts. reflexivity.
  - rewrite utoa_from_10 by lia.
    rewrite utoa_from_10 by div_facts.
    rewrite utoa_from_10 by div_facts.
    rewrite utoa_below_10 by div_facts.
    replace (x / 1000) with (x / 10 / 10 / 10) by div_facts.
    replace (x / 100 mod 10) with (x / 10 / 10 mod 10) by div_facts. reflexivity.
Qed.

(** A decimal digit survives the trip through its character. *)
Lemma digitChar_digit d :
  0 <= d <= 9 -> isDigit (digitChar d) = true /\ digitVal (digitChar d) = d.
Proof.
  intros Hd.
  assert (Hcases : d = 0 \/ d = 1 \/ d = 2 \/ d = 3 \/ d = 4 \/
                   d = 5 \/ d = 6 \/ d = 7 \/ d = 8 \/ d = 9) by lia.
  repeat (destruct Hcases as [->|Hcases]; [split; reflexivity|]).
  subst d. split; reflexivity.
Qed.

Lemma getnum_twoDigits x rest fixed :
  0 <= x < 100 -> getnum (twoDigits x +:+ rest) fixed = Some (x, rest).
Proof.
  intros Hx.
  change (twoDigits x +:+ rest)
    with (String (digitChar (x / 10)) (String (digitChar (x mod 10)) rest)).
  destruct (digitChar_digit (x / 10)) as [Hi1 Hv1]; [div_facts|].
  destruct (digitChar_digit (x mod 10)) as [Hi2 Hv2]; [div_facts|].
  unfold getnum. rewrite Hi1, Hi2, Hv1, Hv2. do 2 f_equal. div_facts.
Qed.

Lemma Format_15_04_digits c :
  validClock c ->
  Format_15_04 c =
    twoDigits (hour c) +:+ String ":" (twoDigits (minute c) +:+ EmptyString).
Proof.
  intros [Hh Hm]. unfold Format_15_04, appendInt.
  rewrite !formatInt_width2 by lia. reflexivity.
Qed.

(** The clock string the loop builds always parses back, to the minute of
    the clock: the first [continue] of the loop body is never taken. *)
Lemma parseTime_Format c :
  validClock c -> parseTime (Format_15_04 c) = Ok (timeOfDay c).
Proof.
  intros Hc. rewrite (Format_15_04_digits c Hc). destruct Hc as [Hh Hm].
  unfold parseTime, Parse_15_04, timeOfDay.
  rewrite getnum_twoDigits by lia.
  destruct (Z.ltb_spec (hour c) 0); [lia|].
  destruct (Z.leb_spec 24 (hour c)); [lia|].
  cbv iota beta. unfold orb.
  rewrite getnum_twoDigits by lia.
  destruct (Z.ltb_spec (minute c) 0); [lia|].
  destruct (Z.leb_spec 60 (minute c)); [lia|]. reflexivity.
Qed.

(** ** The existence check *)

Lemma checkIndexExists_transport_error err :
  exists e, outcome (checkIndexExists (DoError err)) = Failed e.
Proof. simpl. eauto. Qed.

Lemma checkIndexExists_NotExists_iff StatusCode :
  outcome (checkIndexExists (DoResponse StatusCode)) = NotExists <->
  StatusCode = 404.
Proof.
  simpl. destruct (Z.eqb_spec StatusCode 404); simpl; split;
    congruence || discriminate.
Qed.

Lemma checkIndexExists_response_never_fails StatusCode :
  snd (checkIndexExists (DoResponse StatusCode)) = None.
Proof. simpl. now destruct (StatusCode =? 404). Qed.

Lemma checkIndexExists_other_status StatusCode :
  StatusCode <> 404 ->
  outcome (checkIndexExists (DoResponse StatusCode)) = Exists.
Proof.
  intros Hne. simpl. destruct (Z.eqb_spec StatusCode 404); [contradiction|reflexivity].
Qed.

(** C1.  The claim asks that an unexpected status be reported as a failed
    check.  On a 503 answer of the store [checkIndexExists] returns
    [(true, nil)]: the outcome is [Exists], with no error, while the same
    status makes [IsError] true on the start-up ping. *)
Theorem C1_status_503_is_Exists :
  checkIndexExists (DoResponse 503) = (true, None) /\
  outcome (checkIndexExists (DoResponse 503)) = Exists /\
  IsError 503 = true.
Proof. repeat split. Qed.

(** ** The window test *)

Lemma outsideWindow_spec now s e :
  outsideWindow now s e = true <-> now < s \/ e < now.
Proof.
  unfold outsideWindow, Before, After.
  rewrite orb_true_iff, !Z.ltb_lt. reflexivity.
Qed.

Lemma InWindow_spec now s e : InWindow now s e = true <-> s <= now <= e.
Proof.
  unfold InWindow. rewrite negb_true_iff, <- not_true_iff_false, outsideWindow_spec.
  lia.
Qed.

Lemma InWindow_empty_when_end_before_start now s e :
  e < s -> InWindow now s e = false.
Proof.
  intros Hlt. apply not_true_iff_false. rewrite InWindow_spec. lia.
Qed.

(** ** One tick *)

Section Tick.
Variable prefix : string.
Variables startTime endTime : Time.

Local Abbreviation tick := (Exporter.tick prefix startTime endTime).
Local Abbreviation run := (Exporter.run prefix startTime endTime).

(** A tick either leaves the gauge alone or sets today's label to 0 or 1. *)
Lemma tick_cases (g : gmap string float) i :
  tick g i = g \/
  exists v, (v = 0%float \/ v = 1%float) /\
            tick g i = <[indexName prefix (currentTime i) := v]> g.
Proof.
  unfold Exporter.tick, WithLabelValues_Set.
  destruct (parseTime _); [|now left].
  destruct (checkIndexExists _) as [b [err|]]; [now left|].
  right. destruct (outsideWindow _ _ _); [|destruct b]; eauto.
Qed.

(** A failed check is a [continue]. *)
Lemma tick_failed (g : gmap string float) i :
  snd (checkIndexExists (response i)) <> None -> tick g i = g.
Proof.
  unfold Exporter.tick. intros Hf.
  destruct (parseTime _); [|reflexivity].
  destruct (checkIndexExists _) as [b [err|]]; [reflexivity|].
  now elim Hf.
Qed.

Lemma outcome_Failed_snd (r : bool * option string) err :
  outcome r = Failed err -> snd r <> None.
Proof. destruct r as [[|] [e|]]; simpl; congruence. Qed.

(** A tick touches no label but today's. *)
Lemma tick_lookup_other (g : gmap string float) i name :
  indexName prefix (currentTime i) <> name -> tick g i !! name = g !! name.
Proof.
  intros Hne. destruct (tick_cases g i) as [->|(v & _ & ->)]; [reflexivity|].
  now apply lookup_insert_ne.
Qed.

(** What a tick with a working clock leaves under today's label. *)
Lemma tick_lookup_today (g : gmap string float) i :
  validClock (currentTime i) ->
  tick g i !! indexName prefix (currentTime i) =
    match checkIndexExists (response i) with
    | (_, Some _) => g !! indexName prefix (currentTime i)
    | (indexExists, None) =>
        if outsideWindow (timeOfDay (currentTime i)) startTime endTime
        then Some 1%float
        else if indexExists then Some 1%float else Some 0%float
    end.
Proof.
  intros Hc. unfold Exporter.tick, WithLabelValues_Set.
  rewrite (parseTime_Format _ Hc).
  destruct (checkIndexExists _) as [b [err|]]; [reflexivity|].
  destruct (outsideWindow _ _ _); [|destruct b]; apply lookup_insert_eq.
Qed.

Lemma run_cons (g : gmap string float) i rest :
  run g (i :: rest) = run (tick g i) rest.
Proof. reflexivity. Qed.

Lemma run_app (g : gmap string float) l1 l2 :
  run g (l1 ++ l2) = run (run g l1) l2.
Proof. apply fold_left_app. Qed.

(** The values of the gauge stay in {0, 1} along the loop. *)
Lemma run_values (g : gmap string float) ticks :
  map_Forall (fun _ v => v = 0%float \/ v = 1%float) g ->
  map_Forall (fun _ v => v = 0%float \/ v = 1%float) (run g ticks).
Proof.
  revert g. induction ticks as [|i rest IH]; intros g Hg; [exact Hg|].
  rewrite run_cons. apply IH.
  destruct (tick_cases g i) as [->|(v & Hv & ->)]; [exact Hg|].
  now apply map_Forall_insert_2.
Qed.

(** A label stays absent as long as every check made for it fails. *)
Lemma run_absent (g : gmap string float) ticks name :
  g !! name = None ->
  (forall i, In i ticks -> indexName prefix (currentTime i) = name ->
             snd (checkIndexExists (response i)) <> None) ->
  run g ticks !! name = None.
Proof.
  revert g. induction ticks as [|i rest IH]; intros g Hg Hall; [exact Hg|].
  rewrite run_cons. apply IH.
  - destruct (decide (indexName prefix (currentTime i) = name)) as [Heq|Hne].
    + rewrite tick_failed; [exact Hg|]. apply Hall; [now left|exact Heq].
    + now rewrite tick_lookup_other.
  - intros j Hj. apply Hall. now right.
Qed.

End Tick.

(** ** The tick as the process runs it *)

Import GoUTF8.

(** With a working clock, a request that has returned and an index name
    the registry accepts, the tick continues: it logs the failure of the
    check, or sets today's label. *)
Lemma Process_tick_today prefix s e (g : gmap string float) i :
  validClock (currentTime i) ->
  ValidString (indexName prefix (currentTime i)) = true ->
  Process.tick prefix s e g (Process.returned i) =
    match checkIndexExists (response i) with
    | (_, Some err) =>
        Process.Continues g (("Error checking index: " +:+ err) :: nil)
    | (indexExists, None) =>
        Process.Continues
          (<[indexName prefix (currentTime i) :=
               if outsideWindow (timeOfDay (currentTime i)) s e then 1%float
               else if indexExists then 1%float else 0%float]> g) nil
    end.
Proof.
  intros Hc Hv. unfold Process.tick, Process.returned.
  cbn [Process.currentTime Process.request].
  rewrite (parseTime_Format _ Hc).
  destruct (checkIndexExists _) as [b [err|]]; [reflexivity|].
  unfold Process.publish, Process.WithLabelValues_Set. rewrite Hv.
  destruct (outsideWindow _ _ _); [|destruct b]; reflexivity.
Qed.

(** Without such a name the first successful check ends the process. *)
Lemma Process_tick_panics prefix s e (g : gmap string float) i :
  validClock (currentTime i) ->
  ValidString (indexName prefix (currentTime i)) = false ->
  snd (checkIndexExists (response i)) = None ->
  Process.tick prefix s e g (Process.returned i)
    = Process.Panics (indexName prefix (currentTime i)).
Proof.
  intros Hc Hv Hok. unfold Process.tick, Process.returned.
  cbn [Process.currentTime Process.request].
  rewrite (parseTime_Format _ Hc).
  destruct (checkIndexExists _) as [b [err|]]; [discriminate Hok|].
  unfold Process.publish, Process.WithLabelValues_Set. rewrite Hv.
  destruct (outsideWindow _ _ _); [|destruct b]; reflexivity.
Qed.

(** ** The properties of the exported gauge *)

(** C2, as stated, fails at [now = end]: with the window 09:00-18:00 the
    test at 18:00 answers [true], where a half-open window answers
    [false]; a tick at 18:00 that finds no index publishes 0. *)
Lemma C2_counterexample :
  parseTime "09:00" = Ok 32400 /\ parseTime "18:00" = Ok 64800 /\
  InWindow 64800 32400 64800 = true /\
  ~ (InWindow 64800 32400 64800 = true <-> 32400 <= 64800 < 64800) /\
  tick "logs-" 32400 64800 ∅ (mkTick (mkClock 2025 1 15 18 0) (DoResponse 404))
    !! "logs-2025.01.15"%string = Some 0%float.
Proof.
  split; [reflexivity|]. split; [reflexivity|]. split; [reflexivity|]. split.
  - intros [H _]. specialize (H eq_refl). lia.
  - assert (Hc : validClock (mkClock 2025 1 15 18 0)) by (unfold validClock; simpl; lia).
    exact (tick_lookup_today "logs-" 32400 64800 ∅
             (mkTick (mkClock 2025 1 15 18 0) (DoResponse 404)) Hc).
Qed.

(** C2, amended.  The window test answers [true] exactly when
    [start <= now <= end]: the interval is closed at both ends, so both
    [InWindow(start, start, end)] and [InWindow(end, start, end)] are
    [true] as soon as [start <= end]. *)
Theorem C2_InWindow_closed_interval (now startTime endTime : Time) :
  (InWindow now startTime endTime = true <-> startTime <= now <= endTime) /\
  InWindow startTime startTime endTime = (startTime <=? endTime) /\
  InWindow endTime startTime endTime = (startTime <=? endTime).
Proof.
  split; [apply InWindow_spec|].
  split; apply eq_true_iff_eq; rewrite InWindow_spec, Z.leb_le; lia.
Qed.

(** C8, as stated, fails when the two ends coincide: with start and end
    both at 09:00 the test at 09:00 answers [true], and a tick at 09:00
    that finds no index publishes 0. *)
Lemma C8_counterexample :
  parseTime "09:00" = Ok 32400 /\
  32400 <= 32400 /\ InWindow 32400 32400 32400 <> false /\
  tick "logs-" 32400 32400 ∅ (mkTick (mkClock 2025 1 15 9 0) (DoResponse 404))
    !! "logs-2025.01.15"%string = Some 0%float.
Proof.
  split; [reflexivity|]. split; [lia|]. split; [discriminate|].
  assert (Hc : validClock (mkClock 2025 1 15 9 0)) by (unfold validClock; simpl; lia).
  exact (tick_lookup_today "logs-" 32400 32400 ∅
           (mkTick (mkClock 2025 1 15 9 0) (DoResponse 404)) Hc).
Qed.

(** C8, amended.  When [windowEnd <= windowStart] the window test answers
    [false] at every time of day, except at the single instant
    [now = windowStart = windowEnd], where it answers [true]. *)
Theorem C8_inverted_window (now startTime endTime : Time) :
  endTime <= startTime ->
  InWindow now startTime endTime = (now =? startTime) && (endTime =? startTime).
Proof.
  intros Hle. apply eq_true_iff_eq.
  rewrite InWindow_spec, andb_true_iff, !Z.eqb_eq. lia.
Qed.

Lemma C8_inverted_window_witness :
  21600 <= 79200 /\
  InWindow 82800 79200 21600 = (82800 =? 79200) && (21600 =? 79200).
Proof. split; [lia | apply (C8_inverted_window 82800 79200 21600); lia]. Defined.

(** C3, as stated, fails for a failed check: at 20:00, outside the window
    09:00-18:00, a request that times out leaves the gauge without any
    value for today's index name.  It also fails for a prefix that is
    not valid UTF-8: the tick panics in [WithLabelValues]. *)
Lemma C3_counterexample :
  indexName "logs-" (mkClock 2025 1 15 20 0) = "logs-2025.01.15"%string /\
  outsideWindow (timeOfDay (mkClock 2025 1 15 20 0)) 32400 64800 = true /\
  tick "logs-" 32400 64800 ∅ (mkTick (mkClock 2025 1 15 20 0) (DoError "timeout"))
    !! "logs-2025.01.15"%string <> Some 1%float /\
  Process.tick (String "255"%char "logs-") 32400 64800 ∅
    (Process.returned (mkTick (mkClock 2025 1 15 20 0) (DoResponse 200)))
    = Process.Panics (String "255"%char "logs-2025.01.15").
Proof.
  split; [reflexivity|]. split; [reflexivity|]. split.
  - rewrite tick_failed by (simpl; discriminate).
    rewrite lookup_empty. discriminate.
  - assert (Hc : validClock (mkClock 2025 1 15 20 0))
      by (unfold validClock; simpl; lia).
    exact (Process_tick_panics (String "255"%char "logs-") 32400 64800 ∅
             (mkTick (mkClock 2025 1 15 20 0) (DoResponse 200))
             Hc eq_refl eq_refl).
Qed.

(** C3, amended.  On a tick outside the window (the clock before the start
    or after the end) whose index name is valid UTF-8: when the check
    succeeds, whether the index exists or not, the tick sets the gauge
    for today's index name to 1 and changes nothing else; when the check
    fails, the tick publishes nothing, leaving the gauge as it was and
    logging the error. *)
Theorem C3_outside_window_publishes_one
    prefix startTime endTime (g : gmap string float) i :
  validClock (currentTime i) ->
  outsideWindow (timeOfDay (currentTime i)) startTime endTime = true ->
  ValidString (indexName prefix (currentTime i)) = true ->
  Process.tick prefix startTime endTime g (Process.returned i) =
    match outcome (checkIndexExists (response i)) with
    | Exists | NotExists =>
        Process.Continues (<[indexName prefix (currentTime i) := 1%float]> g) nil
    | Failed err =>
        Process.Continues g (("Error checking index: " +:+ err) :: nil)
    end.
Proof.
  intros Hc Hout Hv. rewrite Process_tick_today by assumption.
  rewrite Hout. now destruct (checkIndexExists _) as [[|] [err|]].
Qed.

Lemma C3_outside_window_publishes_one_witness :
  validClock (mkClock 2025 1 15 20 0) /\
  outsideWindow (timeOfDay (mkClock 2025 1 15 20 0)) 32400 64800 = true /\
  ValidString "logs-2025.01.15" = true /\
  Process.tick "logs-" 32400 64800 ∅
    (Process.returned (mkTick (mkClock 2025 1 15 20 0) (DoResponse 404)))
    = Process.Continues {[ "logs-2025.01.15"%string := 1%float ]} nil /\
  Process.tick "logs-" 32400 64800 ∅
    (Process.returned (mkTick (mkClock 2025 1 15 20 0) (DoError "timeout")))
    = Process.Continues ∅
        ("Error checking index: failed to query index existence: timeout"%string
         :: nil).
Proof.
  assert (Hc : validClock (mkClock 2025 1 15 20 0)) by (unfold validClock; simpl; lia).
  split; [exact Hc|]. split; [reflexivity|]. split; [reflexivity|]. split.
  - exact (C3_outside_window_publishes_one "logs-" 32400 64800 ∅
             (mkTick (mkClock 2025 1 15 20 0) (DoResponse 404))
             Hc eq_refl eq_refl).
  - exact (C3_outside_window_publishes_one "logs-" 32400 64800 ∅
             (mkTick (mkClock 2025 1 15 20 0) (DoError "timeout"))
             Hc eq_refl eq_refl).
Defined.

(** C4.  A tick inside the window whose existence check fails publishes
    nothing: the whole gauge state is what it was before the tick, and
    the loop proceeds to the next tick, which runs from that same state
    as if the failed tick had not been there. *)
Theorem C4_failed_check_publishes_nothing
    prefix startTime endTime (g : gmap string float) i err :
  InWindow (timeOfDay (currentTime i)) startTime endTime = true ->
  outcome (checkIndexExists (response i)) = Failed err ->
  tick prefix startTime endTime g i = g /\
  (forall j, run prefix startTime endTime g (i :: j :: nil)
             = tick prefix startTime endTime g j) /\
  (forall rest, run prefix startTime endTime g (i :: rest)
                = run prefix startTime endTime g rest).
Proof.
  intros _ Hf. apply outcome_Failed_snd in Hf.
  split; [now apply tick_failed|]. split.
  - intros j. rewrite run_cons, (tick_failed _ _ _ g i Hf). reflexivity.
  - intros rest. rewrite run_cons, (tick_failed _ _ _ g i Hf). reflexivity.
Qed.

Lemma C4_failed_check_publishes_nothing_witness :
  InWindow (timeOfDay (mkClock 2025 1 15 10 0)) 32400 64800 = true /\
  tick "logs-" 32400 64800 {[ "logs-2025.01.15"%string := 0%float ]}
       (mkTick (mkClock 2025 1 15 10 0) (DoError "timeout"))
    = {[ "logs-2025.01.15"%string := 0%float ]} /\
  run "logs-" 32400 64800 {[ "logs-2025.01.15"%string := 0%float ]}
      (mkTick (mkClock 2025 1 15 10 0) (DoError "timeout")
       :: mkTick (mkClock 2025 1 15 10 1) (DoResponse 200) :: nil)
    = tick "logs-" 32400 64800 {[ "logs-2025.01.15"%string := 0%float ]}
           (mkTick (mkClock 2025 1 15 10 1) (DoResponse 200)).
Proof.
  split; [reflexivity|].
  destruct (C4_failed_check_publishes_nothing "logs-" 32400 64800
              {[ "logs-2025.01.15"%string := 0%float ]}
              (mkTick (mkClock 2025 1 15 10 0) (DoError "timeout"))
              "failed to query index existence: timeout" eq_refl eq_refl)
    as (Hsame & Hnext & _).
  split; [exact Hsame | exact (Hnext _)].
Defined.



(** C7.  The index name of a tick is the prefix followed by the date of
    the clock as a four-digit year, a two-digit month and a two-digit
    day, each zero-padded and separated by dots.  The name is a total
    function of the prefix and the date. *)
Theorem C7_indexName_format prefix c :
  validDate c ->
  indexName prefix c =
    prefix +:+ fourDigits (year c) +:+ "." +:+ twoDigits (month c)
           +:+ "." +:+ twoDigits (day c).
Proof.
  intros (Hy & Hm & Hd).
  unfold indexName, Format_2006_01_02, appendInt.
  rewrite formatInt_width4 by lia.
  rewrite !formatInt_width2 by lia.
  reflexivity.
Qed.

Lemma C7_indexName_format_witness :
  validDate (mkClock 2024 3 7 10 0) /\
  indexName "llmstudio-" (mkClock 2024 3 7 10 0) = "llmstudio-2024.03.07"%string.
Proof.
  assert (Hd : validDate (mkClock 2024 3 7 10 0)) by (unfold validDate; simpl; lia).
  split; [exact Hd|].
  exact (C7_indexName_format "llmstudio-" (mkClock 2024 3 7 10 0) Hd).
Defined.

(** C9.  A tick writes nothing or writes 0 or 1 under today's index name,
    so every entry of the gauge state reached from the empty state, after
    any number of ticks, is 0 or 1. *)
Theorem C9_gauge_values_zero_or_one prefix startTime endTime :
  (forall (g : gmap string float) i,
      tick prefix startTime endTime g i = g \/
      exists v, (v = 0%float \/ v = 1%float) /\
                tick prefix startTime endTime g i
                  = <[indexName prefix (currentTime i) := v]> g) /\
  (forall ticks,
      map_Forall (fun _ v => v = 0%float \/ v = 1%float)
                 (run prefix startTime endTime ∅ ticks)).
Proof.
  split; [apply tick_cases|].
  intros ticks. apply run_values, map_Forall_empty.
Qed.

(** C10.  As long as the existence check has failed on every tick made
    for an index name, the gauge state reached from the empty state has
    no entry for that name. *)
Theorem C10_failed_checks_leave_label_absent
    prefix startTime endTime ticks name :
  (forall i, In i ticks -> indexName prefix (currentTime i) = name ->
             exists err, outcome (checkIndexExists (response i)) = Failed err) ->
  run prefix startTime endTime ∅ ticks !! name = None.
Proof.
  intros Hall. apply run_absent; [apply lookup_empty|].
  intros i Hi Hn. destruct (Hall i Hi Hn) as [err Herr].
  exact (outcome_Failed_snd _ _ Herr).
Qed.

Lemma C10_failed_checks_leave_label_absent_witness :
  run "logs-" 32400 64800 ∅
      (mkTick (mkClock 2025 1 14 23 59) (DoResponse 200)
       :: mkTick (mkClock 2025 1 15 0 0) (DoError "timeout")
       :: mkTick (mkClock 2025 1 15 10 0) (DoError "connection refused")
       :: nil)
    !! "logs-2025.01.15"%string = None.
Proof.
  apply (C10_failed_checks_leave_label_absent "logs-" 32400 64800).
  intros i [<-|[<-|[<-|[]]]] Hn; simpl in *.
  - discriminate Hn.
  - eexists; reflexivity.
  - eexists; reflexivity.
Defined.

(** ** Start-up *)

Lemma missingParameter_spec f :
  missingParameter f = true <->
  esURI f = ""%string \/ esIndexPrefix f = ""%string \/ queryInterval f = 0.
Proof.
  unfold missingParameter.
  rewrite !orb_true_iff, !String.eqb_eq, Z.eqb_eq. tauto.
Qed.

Lemma main_startup_missing f env :
  esURI f = ""%string \/ esIndexPrefix f = ""%string \/ queryInterval f = 0 ->
  main_startup f env = ExitUsage.
Proof.
  intros H. apply missingParameter_spec in H.
  unfold main_startup. now rewrite H.
Qed.

(** C5.  The claim asks that every interval [<= 0] be refused by the
    start-up validation.  With [-query-interval -5] and the other
    required flags given, the guard is not taken; [main] goes on to parse
    the times, reach the store and ping it, and stops only at
    [time.NewTicker], which panics on the negative duration. *)
Theorem C5_negative_interval_passes_validation :
  missingParameter (mkFlags "http://es:9200" "logs-" (-5) 9184 "09:00" "18:00" "5s")
    = false /\
  main_startup (mkFlags "http://es:9200" "logs-" (-5) 9184 "09:00" "18:00" "5s")
               (mkCollab None None None (DoResponse 200))
    = TickerPanic /\
  main_startup (mkFlags "http://es:9200" "logs-" 0 9184 "09:00" "18:00" "5s")
               (mkCollab None None None (DoResponse 200))
    = ExitUsage.
Proof. split; [|split]; reflexivity. Qed.

(** ** Further properties of the loop *)

(** X1.  The clock string built at the top of the loop body always parses
    back to the minute it was formatted from, so the [continue] after
    [parseTime] is dead code for every reading of the clock. *)
Theorem clock_string_round_trip c :
  validClock c -> parseTime (Format_15_04 c) = Ok (timeOfDay c).
Proof. apply parseTime_Format. Qed.

Lemma clock_string_round_trip_witness :
  validClock (mkClock 2025 1 15 9 5) /\
  parseTime (Format_15_04 (mkClock 2025 1 15 9 5)) = Ok 32700.
Proof.
  assert (Hc : validClock (mkClock 2025 1 15 9 5)) by (unfold validClock; simpl; lia).
  split; [exact Hc|].
  exact (clock_string_round_trip (mkClock 2025 1 15 9 5) Hc).
Defined.

(** X2.  The gauge is not cumulative: running the same tick again, with the
    same clock and the same answer of the store, changes nothing. *)
Theorem tick_idempotent prefix startTime endTime (g : gmap string float) i :
  tick prefix startTime endTime (tick prefix startTime endTime g i) i
    = tick prefix startTime endTime g i.
Proof.
  unfold tick, WithLabelValues_Set.
  destruct (parseTime _); [|reflexivity].
  destruct (checkIndexExists _) as [b [err|]]; [reflexivity|].
  destruct (outsideWindow _ _ _); [|destruct b]; apply insert_insert_eq.
Qed.

(** X3.  No tick removes an entry: the labels of past days stay in the gauge
    for as long as the loop runs. *)
Theorem entries_never_removed
    prefix startTime endTime (g : gmap string float) ticks name :
  is_Some (g !! name) ->
  is_Some (run prefix startTime endTime g ticks !! name).
Proof.
  revert g. induction ticks as [|i rest IH]; intros g Hg; [exact Hg|].
  rewrite run_cons. apply IH.
  destruct (tick_cases prefix startTime endTime g i) as [->|(v & _ & ->)];
    [exact Hg|].
  rewrite lookup_insert. case_decide; [eauto | exact Hg].
Qed.

Lemma entries_never_removed_witness :
  is_Some (run "logs-" 32400 64800 {[ "logs-2025.01.14"%string := 0%float ]}
               (mkTick (mkClock 2025 1 15 10 0) (DoResponse 200) :: nil)
             !! "logs-2025.01.14"%string).
Proof.
  apply (entries_never_removed "logs-" 32400 64800
           {[ "logs-2025.01.14"%string := 0%float ]}).
  rewrite lookup_singleton_eq. eauto.
Defined.


(** ** What [parseTime] accepts *)

(** A character that passes [isDigit] is the character of its value. *)
Lemma isDigit_digitChar c :
  isDigit c = true -> 0 <= digitVal c <= 9 /\ c = digitChar (digitVal c).
Proof.
  unfold isDigit, digitVal, digitChar. intros Hd.
  apply andb_true_iff in Hd. destruct Hd as [Hlo Hhi].
  apply Nat.leb_le in Hlo. apply Nat.leb_le in Hhi.
  split; [lia|].
  replace (48 + Z.to_nat (Z.of_nat (nat_of_ascii c) - 48))%nat
    with (nat_of_ascii c) by lia.
  symmetry. apply ascii_nat_embedding.
Qed.

Lemma isDigit_colon : isDigit ":" = false.
Proof. reflexivity. Qed.

(** Two digit characters read as a number below 100 are its two digits. *)
Lemma twoDigits_of_chars c0 c1 :
  isDigit c0 = true -> isDigit c1 = true ->
  String c0 (String c1 EmptyString) = twoDigits (digitVal c0 * 10 + digitVal c1).
Proof.
  intros H0 H1.
  destruct (isDigit_digitChar c0 H0) as [B0 E0].
  destruct (isDigit_digitChar c1 H1) as [B1 E1].
  unfold twoDigits.
  replace ((digitVal c0 * 10 + digitVal c1) / 10) with (digitVal c0) by div_facts.
  replace ((digitVal c0 * 10 + digitVal c1) mod 10) with (digitVal c1) by div_facts.
  now rewrite <- E0, <- E1.
Qed.

(** With [fixed], [getnum] succeeds only on two digit characters. *)
Lemma getnum_fixed_inv s m rest :
  getnum s true = Some (m, rest) ->
  0 <= m < 100 /\ s = twoDigits m +:+ rest.
Proof.
  destruct s as [|c0 [|c1 s2]]; cbn [getnum]; try discriminate.
  - destruct (isDigit c0); discriminate.
  - destruct (isDigit c0) eqn:H0; [|discriminate].
    destruct (isDigit c1) eqn:H1; [|discriminate].
    intros [= <- <-].
    destruct (isDigit_digitChar c0 H0) as [B0 _].
    destruct (isDigit_digitChar c1 H1) as [B1 _].
    split; [lia|].
    rewrite <- (twoDigits_of_chars c0 c1 H0 H1). reflexivity.
Qed.

(** Without [fixed], [getnum] reads two digit characters, or one that is
    not followed by a digit. *)
Lemma getnum_free_inv s h rest :
  getnum s false = Some (h, rest) ->
  (0 <= h < 100 /\ s = twoDigits h +:+ rest) \/
  (0 <= h < 10 /\ s = String (digitChar h) rest).
Proof.
  destruct s as [|c0 s1]; cbn [getnum]; [discriminate|].
  destruct (isDigit c0) eqn:H0; [|discriminate].
  destruct (isDigit_digitChar c0 H0) as [B0 E0].
  destruct s1 as [|c1 s2].
  - intros [= <- <-]. right. split; [lia|]. now rewrite <- E0.
  - destruct (isDigit c1) eqn:H1.
    + intros [= <- <-]. left.
      destruct (isDigit_digitChar c1 H1) as [B1 _].
      split; [lia|].
      rewrite <- (twoDigits_of_chars c0 c1 H0 H1). reflexivity.
    + intros [= <- <-]. right. split; [lia|]. now rewrite <- E0.
Qed.

Lemma getnum_one_digit h rest :
  0 <= h < 10 ->
  getnum (String (digitChar h) (String ":" rest)) false
    = Some (h, String ":" rest).
Proof.
  intros Hh. destruct (digitChar_digit h) as [Hi Hv]; [lia|].
  unfold getnum. now rewrite Hi, isDigit_colon, Hv.
Qed.

Lemma Parse_15_04_tail h v1 :
  0 <= h < 24 ->
  forall m, 0 <= m < 60 ->
  v1 = String ":" (twoDigits m +:+ EmptyString) ->
  (if (h <? 0) || (24 <=? h) then None
   else match v1 with
        | String ":" v2 =>
            match getnum v2 true with
            | None => None
            | Some (m, v3) =>
                if (m <? 0) || (60 <=? m) then None
                else match v3 with
                     | EmptyString => Some (h * 3600 + m * 60)
                     | String _ _ => None
                     end
            end
        | _ => None
        end) = Some (h * 3600 + m * 60).
Proof.
  intros Hh m Hm ->.
  destruct (Z.ltb_spec h 0); [lia|]. destruct (Z.leb_spec 24 h); [lia|].
  cbv iota beta. unfold orb.
  rewrite getnum_twoDigits by lia.
  destruct (Z.ltb_spec m 0); [lia|]. destruct (Z.leb_spec 60 m); [lia|].
  reflexivity.
Qed.

Lemma Parse_15_04_inv s t :
  Parse_15_04 s = Some t ->
  exists h m, 0 <= h < 24 /\ 0 <= m < 60 /\ t = h * 3600 + m * 60 /\
    (s = twoDigits h +:+ ":" +:+ twoDigits m \/
     (h < 10 /\ s = String (digitChar h) (":" +:+ twoDigits m))).
Proof.
  unfold Parse_15_04.
  destruct (getnum s false) as [[h v1]|] eqn:G; [|discriminate].
  destruct ((h <? 0) || (24 <=? h)) eqn:R; [discriminate|].
  apply orb_false_iff in R. destruct R as [R0 R1].
  apply Z.ltb_ge in R0. apply Z.leb_gt in R1.
  destruct v1 as [|c v2]; [discriminate|].
  destruct (ascii_dec c ":") as [->|Hne];
    [|destruct c as [[] [] [] [] [] [] [] []]; try discriminate; now elim Hne].
  destruct (getnum v2 true) as [[m v3]|] eqn:G2; [|discriminate].
  destruct ((m <? 0) || (60 <=? m)) eqn:R'; [discriminate|].
  apply orb_false_iff in R'. destruct R' as [R2 R3].
  apply Z.ltb_ge in R2. apply Z.leb_gt in R3.
  destruct v3; [|discriminate]. intros [= <-].
  apply getnum_fixed_inv in G2. destruct G2 as [_ ->].
  exists h, m. split; [lia|]. split; [lia|]. split; [reflexivity|].
  apply getnum_free_inv in G. destruct G as [[_ ->]|[Hh ->]].
  - left. reflexivity.
  - right. split; [lia|reflexivity].
Qed.

Lemma Parse_15_04_two_digit_hour h m :
  0 <= h < 24 -> 0 <= m < 60 ->
  Parse_15_04 (twoDigits h +:+ ":" +:+ twoDigits m) = Some (h * 3600 + m * 60).
Proof.
  intros Hh Hm. unfold Parse_15_04.
  change (twoDigits h +:+ ":" +:+ twoDigits m)
    with (twoDigits h +:+ String ":" (twoDigits m +:+ EmptyString)).
  rewrite getnum_twoDigits by lia.
  exact (Parse_15_04_tail h _ Hh m Hm eq_refl).
Qed.

Lemma Parse_15_04_one_digit_hour h m :
  0 <= h < 10 -> 0 <= m < 60 ->
  Parse_15_04 (String (digitChar h) (":" +:+ twoDigits m))
    = Some (h * 3600 + m * 60).
Proof.
  intros Hh Hm. unfold Parse_15_04.
  change (":" +:+ twoDigits m) with (String ":" (twoDigits m +:+ EmptyString)).
  rewrite getnum_one_digit by lia.
  exact (Parse_15_04_tail h _ ltac:(lia) m Hm eq_refl).
Qed.

(** X5.  [parseTime] accepts exactly the strings made of an hour below
    24 written with two digits, or with one digit when it is below 10, a
    colon, and a minute below 60 written with two digits; the result is
    that hour and minute in seconds. *)
Theorem parseTime_accepts_iff s t :
  parseTime s = Ok t <->
  exists h m, 0 <= h < 24 /\ 0 <= m < 60 /\ t = h * 3600 + m * 60 /\
    (s = twoDigits h +:+ ":" +:+ twoDigits m \/
     (h < 10 /\ s = String (digitChar h) (":" +:+ twoDigits m))).
Proof.
  unfold parseTime. split.
  - destruct (Parse_15_04 s) as [t'|] eqn:HP; [|discriminate].
    intros [= <-]. now apply Parse_15_04_inv.
  - intros (h & m & Hh & Hm & -> & [->|[Hlt ->]]).
    + now rewrite Parse_15_04_two_digit_hour.
    + now rewrite Parse_15_04_one_digit_hour by lia.
Qed.

(** X6.  A time accepted by [parseTime] is a whole minute of one day:
    between 00:00 and 23:59, in seconds, and a multiple of 60; a refused
    string comes back inside the error message. *)
Theorem parseTime_range s :
  match parseTime s with
  | Ok t => 0 <= t <= 86340 /\ t mod 60 = 0
  | Err msg => msg = "invalid time format: " +:+ s
  end.
Proof.
  unfold parseTime.
  destruct (Parse_15_04 s) as [t|] eqn:HP; [|reflexivity].
  apply Parse_15_04_inv in HP.
  destruct HP as (h & m & Hh & Hm & -> & _). split; [lia|div_facts].
Qed.

(** ** Start-up and the period of the ticker *)

Lemma wrap64_in_range z :
  - 2 ^ 63 <= z < 2 ^ 63 -> wrap64 z = z.
Proof.
  intros Hz. unfold wrap64.
  rewrite Z.mod_small by lia. lia.
Qed.

Lemma wrap64_bounds z : - 2 ^ 63 <= wrap64 z < 2 ^ 63.
Proof.
  unfold wrap64.
  pose proof (Z.mod_pos_bound (z + 2 ^ 63) (2 ^ 64) ltac:(lia)). lia.
Qed.

Lemma NewTicker_Some d d' : NewTicker d = Some d' -> 0 < d /\ d' = d.
Proof.
  unfold NewTicker. destruct (Z.ltb_spec 0 d); [|discriminate].
  intros [= <-]. split; [assumption|reflexivity].
Qed.

(** What holds once [main] has reached the loop. *)
Lemma main_startup_Running f env s e d :
  main_startup f env = Running s e d ->
  missingParameter f = false /\
  parseTime (startTimeStr f) = Ok s /\
  parseTime (endTimeStr f) = Ok e /\
  NewTicker (wrap64 (queryInterval f * 1000000000)) = Some d.
Proof.
  unfold main_startup.
  destruct (missingParameter f); [discriminate|].
  destruct (parseTime (startTimeStr f)) as [s'|]; [|discriminate].
  destruct (parseTime (endTimeStr f)) as [e'|]; [|discriminate].
  destruct (urlParse env); [discriminate|].
  destruct (parseDuration env); [discriminate|].
  destruct (newClient env); [discriminate|].
  destruct (ping env) as [|st]; [discriminate|].
  destruct (IsError st); [discriminate|].
  destruct (NewTicker _) as [d'|]; [|discriminate].
  intros [= <- <- <-]. repeat split; reflexivity.
Qed.

(** X7.  When [main] reaches the loop with a query interval of at most
    9223372036 seconds in absolute value, the interval is positive and
    the ticker fires every [interval * 10^9] nanoseconds: no interval
    that is zero or negative in that range starts the loop. *)
Theorem ticker_period_exact f env s e d :
  main_startup f env = Running s e d ->
  -9223372036 <= queryInterval f <= 9223372036 ->
  0 < queryInterval f /\ d = queryInterval f * 1000000000.
Proof.
  intros Hrun Hq.
  apply main_startup_Running in Hrun. destruct Hrun as (_ & _ & _ & Ht).
  apply NewTicker_Some in Ht. destruct Ht as [Hpos ->].
  rewrite wrap64_in_range in * by lia. lia.
Qed.

Lemma ticker_period_exact_witness :
  main_startup (mkFlags "http://es:9200" "logs-" 10 9184 "09:00" "18:00" "5s")
               (mkCollab None None None (DoResponse 200))
    = Running 32400 64800 10000000000 /\
  0 < 10 /\ 10000000000 = 10 * 1000000000.
Proof.
  split; [reflexivity|].
  apply (ticker_period_exact
           (mkFlags "http://es:9200" "logs-" 10 9184 "09:00" "18:00" "5s")
           (mkCollab None None None (DoResponse 200)) 32400 64800 10000000000);
    [reflexivity | simpl; lia].
Defined.

(** X8.  Beyond 9223372036 seconds in absolute value the product with
    [time.Second] wraps around in 64 bits: if [main] reaches the loop at
    all, the ticker runs with a period that is not the requested one. *)
Theorem ticker_period_overflow f env s e d :
  main_startup f env = Running s e d ->
  queryInterval f < -9223372036 \/ 9223372036 < queryInterval f ->
  0 < d < 2 ^ 63 /\ d <> queryInterval f * 1000000000.
Proof.
  intros Hrun Hq.
  apply main_startup_Running in Hrun. destruct Hrun as (_ & _ & _ & Ht).
  apply NewTicker_Some in Ht. destruct Ht as [Hpos ->].
  pose proof (wrap64_bounds (queryInterval f * 1000000000)) as Hb.
  split; lia.
Qed.

Lemma ticker_period_overflow_witness :
  main_startup (mkFlags "http://es:9200" "logs-" 18446744074 9184 "09:00" "18:00" "5s")
               (mkCollab None None None (DoResponse 200))
    = Running 32400 64800 290448384 /\
  0 < 290448384 < 2 ^ 63 /\ 290448384 <> 18446744074 * 1000000000.
Proof.
  split; [reflexivity|].
  apply (ticker_period_overflow
           (mkFlags "http://es:9200" "logs-" 18446744074 9184 "09:00" "18:00" "5s")
           (mkCollab None None None (DoResponse 200)) 32400 64800 290448384);
    [reflexivity | right; simpl; lia].
Defined.

(** X9.  A start or end time that [parseTime] refuses stops [main]
    before any collaborator is consulted: the outcome is the same
    whatever the URI parser, the client and the store would answer, and
    it is never the running loop. *)
Theorem bad_time_flag_stops_startup f env env' :
  (exists msg, parseTime (startTimeStr f) = Err msg) \/
  (exists msg, parseTime (endTimeStr f) = Err msg) ->
  main_startup f env = main_startup f env' /\
  forall s e d, main_startup f env <> Running s e d.
Proof.
  intros Hbad. split.
  - unfold main_startup. destruct (missingParameter f); [reflexivity|].
    destruct Hbad as [[msg ->]|[msg Hend]]; [reflexivity|].
    destruct (parseTime (startTimeStr f)); [|reflexivity].
    now rewrite Hend.
  - intros s e d Hrun. apply main_startup_Running in Hrun.
    destruct Hrun as (_ & Hs & He & _).
    destruct Hbad as [[msg Hb]|[msg Hb]]; congruence.
Qed.

Lemma bad_time_flag_stops_startup_witness :
  main_startup (mkFlags "http://es:9200" "logs-" 10 9184 "09:00" "24:00" "5s")
               (mkCollab None None None (DoResponse 200))
  = main_startup (mkFlags "http://es:9200" "logs-" 10 9184 "09:00" "24:00" "5s")
                 (mkCollab (Some "bad uri") None None (DoError "unreachable")).
Proof.
  apply (bad_time_flag_stops_startup
           (mkFlags "http://es:9200" "logs-" 10 9184 "09:00" "24:00" "5s")).
  right. eexists. reflexivity.
Defined.

(** X10.  [main] does not compare the two ends of the window.  When it
    starts with the end before the start (an overnight window such as
    22:00-06:00), every tick whose check succeeds and whose index name is
    valid UTF-8 sets the gauge to 1, whether the index exists or not. *)
Theorem inverted_window_always_publishes_one f env s e d (g : gmap string float) i :
  main_startup f env = Running s e d ->
  e < s ->
  validClock (currentTime i) ->
  snd (checkIndexExists (response i)) = None ->
  ValidString (indexName (esIndexPrefix f) (currentTime i)) = true ->
  Process.tick (esIndexPrefix f) s e g (Process.returned i)
    = Process.Continues
        (<[indexName (esIndexPrefix f) (currentTime i) := 1%float]> g) nil.
Proof.
  intros _ Hlt Hc Hok Hv. rewrite Process_tick_today by assumption.
  destruct (checkIndexExists _) as [b [err|]]; [discriminate Hok|].
  replace (outsideWindow _ s e) with true; [reflexivity|].
  symmetry. apply outsideWindow_spec. lia.
Qed.

Lemma inverted_window_always_publishes_one_witness :
  main_startup (mkFlags "http://es:9200" "logs-" 10 9184 "22:00" "06:00" "5s")
               (mkCollab None None None (DoResponse 200))
    = Running 79200 21600 10000000000 /\
  Process.tick "logs-" 79200 21600 ∅
    (Process.returned (mkTick (mkClock 2025 1 15 23 0) (DoResponse 404)))
    = Process.Continues {[ "logs-2025.01.15"%string := 1%float ]} nil.
Proof.
  split; [reflexivity|].
  assert (Hc : validClock (mkClock 2025 1 15 23 0)) by (unfold validClock; simpl; lia).
  exact (inverted_window_always_publishes_one
           (mkFlags "http://es:9200" "logs-" 10 9184 "22:00" "06:00" "5s")
           (mkCollab None None None (DoResponse 200)) 79200 21600 10000000000 ∅
           (mkTick (mkClock 2025 1 15 23 0) (DoResponse 404))
           eq_refl ltac:(lia) Hc eq_refl eq_refl).
Defined.

(** X11.  Start-up accepts a window whichever way round its ends are
    given: exchanging [-start-time] and [-end-time] changes nothing but
    the order of the two parsed times handed to the loop. *)
Theorem startup_ignores_window_order f env s e d :
  main_startup f env = Running s e d ->
  main_startup
    (mkFlags (esURI f) (esIndexPrefix f) (queryInterval f) (listenPort f)
             (endTimeStr f) (startTimeStr f) (timeoutStr f)) env
    = Running e s d.
Proof.
  unfold main_startup, missingParameter. cbn [esURI esIndexPrefix queryInterval
    startTimeStr endTimeStr].
  destruct (_ || _ || _); [discriminate|].
  destruct (parseTime (startTimeStr f)) as [s'|]; [|discriminate].
  destruct (parseTime (endTimeStr f)) as [e'|]; [|discriminate].
  destruct (urlParse env); [discriminate|].
  destruct (parseDuration env); [discriminate|].
  destruct (newClient env); [discriminate|].
  destruct (ping env) as [|st]; [discriminate|].
  destruct (IsError st); [discriminate|].
  destruct (NewTicker _) as [d'|]; [|discriminate].
  now intros [= <- <- <-].
Qed.

Lemma startup_ignores_window_order_witness :
  main_startup (mkFlags "http://es:9200" "logs-" 10 9184 "18:00" "09:00" "5s")
               (mkCollab None None None (DoResponse 200))
    = Running 64800 32400 10000000000.
Proof.
  exact (startup_ignores_window_order
           (mkFlags "http://es:9200" "logs-" 10 9184 "09:00" "18:00" "5s")
           (mkCollab None None None (DoResponse 200)) 32400 64800 10000000000
           eq_refl).
Defined.

(** ** The first version of the loop *)

(** X12.  With a window that spans the whole day (00:00 to 23:59) the
    loop with the window does on every tick what the first version of
    the loop does: the window only ever adds the override to 1. *)
Theorem full_day_window_is_first_version
    prefix startTime endTime (g : gmap string float) i :
  validClock (currentTime i) ->
  startTime <= 0 -> 86340 <= endTime ->
  tick prefix startTime endTime g i = FirstVersion.tick prefix g i.
Proof.
  intros Hc Hs He. unfold tick, FirstVersion.tick, indexName.
  rewrite (parseTime_Format _ Hc).
  destruct (checkIndexExists _) as [b [err|]]; [reflexivity|].
  replace (outsideWindow _ startTime endTime) with false; [reflexivity|].
  symmetry. apply not_true_iff_false. rewrite outsideWindow_spec.
  destruct Hc as [Hh Hm]. unfold timeOfDay. lia.
Qed.

Lemma full_day_window_is_first_version_witness :
  parseTime "00:00" = Ok 0 /\ parseTime "23:59" = Ok 86340 /\
  tick "logs-" 0 86340 ∅ (mkTick (mkClock 2025 1 15 23 59) (DoResponse 404))
  = FirstVersion.tick "logs-" ∅ (mkTick (mkClock 2025 1 15 23 59) (DoResponse 404)).
Proof.
  split; [reflexivity|]. split; [reflexivity|].
  apply (full_day_window_is_first_version "logs-" 0 86340 ∅
           (mkTick (mkClock 2025 1 15 23 59) (DoResponse 404)));
    [unfold validClock; simpl; lia | lia | lia].
Defined.



(** ** One label per day *)

Lemma digitChar_inj a b :
  0 <= a <= 9 -> 0 <= b <= 9 -> digitChar a = digitChar b -> a = b.
Proof.
  intros Ha Hb Heq.
  destruct (digitChar_digit a Ha) as [_ Hva].
  destruct (digitChar_digit b Hb) as [_ Hvb].
  congruence.
Qed.

Lemma append_cancel_l (p a b : string) : p +:+ a = p +:+ b -> a = b.
Proof.
  induction p as [|c p IH]; [exact (fun H => H)|].
  intros H. apply IH.
  change (String c (p +:+ a) = String c (p +:+ b)) in H. now injection H.
Qed.

Lemma append_length (p a : string) :
  String.length (p +:+ a) = (String.length p + String.length a)%nat.
Proof.
  induction p as [|c p IH]; [reflexivity|].
  change (S (String.length (p +:+ a)) = S (String.length p + String.length a))%nat.
  now rewrite IH.
Qed.

(** The date of a clock with a four-digit year, character by character. *)
Lemma Format_2006_01_02_chars c :
  validDate c ->
  Format_2006_01_02 c =
    String (digitChar (year c / 1000)) (String (digitChar (year c / 100 mod 10))
   (String (digitChar (year c / 10 mod 10)) (String (digitChar (year c mod 10))
   (String "." (String (digitChar (month c / 10)) (String (digitChar (month c mod 10))
   (String "." (String (digitChar (day c / 10)) (String (digitChar (day c mod 10))
    EmptyString))))))))).
Proof.
  intros (Hy & Hm & Hd). unfold Format_2006_01_02, appendInt.
  rewrite formatInt_width4 by lia. rewrite !formatInt_width2 by lia.
  reflexivity.
Qed.

Lemma Format_2006_01_02_inj c1 c2 :
  validDate c1 -> validDate c2 ->
  Format_2006_01_02 c1 = Format_2006_01_02 c2 ->
  year c1 = year c2 /\ month c1 = month c2 /\ day c1 = day c2.
Proof.
  intros V1 V2.
  rewrite (Format_2006_01_02_chars c1 V1), (Format_2006_01_02_chars c2 V2).
  destruct V1 as (Hy1 & Hm1 & Hd1), V2 as (Hy2 & Hm2 & Hd2).
  intros [= E1 E2 E3 E4 E5 E6 E7 E8].
  apply digitChar_inj in E1; [|div_facts..].
  apply digitChar_inj in E2; [|div_facts..].
  apply digitChar_inj in E3; [|div_facts..].
  apply digitChar_inj in E4; [|div_facts..].
  apply digitChar_inj in E5; [|div_facts..].
  apply digitChar_inj in E6; [|div_facts..].
  apply digitChar_inj in E7; [|div_facts..].
  apply digitChar_inj in E8; [|div_facts..].
  repeat split; div_facts.
Qed.

(** X14.  Two dates with four-digit years get the same index name under
    one prefix only when they are the same day: every day has a label of
    its own, ten characters longer than the prefix. *)
Theorem indexName_one_per_day prefix c1 c2 :
  validDate c1 -> validDate c2 ->
  (indexName prefix c1 = indexName prefix c2 <->
   year c1 = year c2 /\ month c1 = month c2 /\ day c1 = day c2) /\
  String.length (indexName prefix c1) = (String.length prefix + 10)%nat.
Proof.
  intros V1 V2. split; [split|].
  - unfold indexName. intros H. apply append_cancel_l in H.
    now apply Format_2006_01_02_inj.
  - intros (Hy & Hm & Hd). unfold indexName, Format_2006_01_02.
    now rewrite Hy, Hm, Hd.
  - unfold indexName. rewrite append_length.
    now rewrite (Format_2006_01_02_chars c1 V1).
Qed.

Lemma indexName_one_per_day_witness :
  (indexName "logs-" (mkClock 2025 1 15 10 0) = indexName "logs-" (mkClock 2025 1 16 10 0)
   <-> 2025 = 2025 /\ 1 = 1 /\ 15 = 16) /\
  String.length (indexName "logs-" (mkClock 2025 1 15 10 0)) = 15%nat.
Proof.
  apply (indexName_one_per_day "logs-"
           (mkClock 2025 1 15 10 0) (mkClock 2025 1 16 10 0));
    unfold validDate; simpl; lia.
Defined.

(** X15.  A tick changes nothing for another day: the value published
    under the index name of a different date stays what it was, whatever
    the tick does for its own day. *)
Theorem tick_keeps_other_days
    prefix startTime endTime (g : gmap string float) i c :
  validDate (currentTime i) -> validDate c ->
  ~ (year c = year (currentTime i) /\ month c = month (currentTime i)
     /\ day c = day (currentTime i)) ->
  tick prefix startTime endTime g i !! indexName prefix c
    = g !! indexName prefix c.
Proof.
  intros Vi Vc Hne. apply tick_lookup_other.
  intros Heq. apply Hne. unfold indexName in Heq.
  apply append_cancel_l in Heq.
  destruct (Format_2006_01_02_inj _ _ Vi Vc Heq) as (Hy & Hm & Hd).
  now rewrite Hy, Hm, Hd.
Qed.

Lemma tick_keeps_other_days_witness :
  tick "logs-" 32400 64800 {[ "logs-2025.01.14"%string := 0%float ]}
       (mkTick (mkClock 2025 1 15 10 0) (DoResponse 200))
    !! "logs-2025.01.14"%string
  = ({[ "logs-2025.01.14"%string := 0%float ]} : gmap string float)
      !! "logs-2025.01.14"%string.
Proof.
  apply (tick_keeps_other_days "logs-" 32400 64800
           {[ "logs-2025.01.14"%string := 0%float ]}
           (mkTick (mkClock 2025 1 15 10 0) (DoResponse 200))
           (mkClock 2025 1 14 0 0));
    unfold validDate; simpl; lia.
Defined.

(** ** Failed checks, labels and the log *)

Import ExporterLog.

Lemma succeeded_false_snd i :
  succeeded i = false -> snd (checkIndexExists (response i)) <> None.
Proof. unfold succeeded. now destruct (snd _). Qed.

Lemma tick_succeeded prefix s e (g : gmap string float) i :
  validClock (currentTime i) -> succeeded i = true ->
  exists v, Exporter.tick prefix s e g i
            = <[indexName prefix (currentTime i) := v]> g.
Proof.
  intros Hc Hs. unfold Exporter.tick, succeeded, WithLabelValues_Set in *.
  rewrite (parseTime_Format _ Hc).
  destruct (checkIndexExists _) as [b [err|]]; [discriminate Hs|].
  destruct (outsideWindow _ _ _); [|destruct b]; eauto.
Qed.

(** X16.  Failed checks leave no trace in the gauge: the state after any
    sequence of ticks is the state after its successful ticks alone. *)
Theorem failed_ticks_leave_no_trace
    prefix startTime endTime (g : gmap string float) ticks :
  Exporter.run prefix startTime endTime g ticks
  = Exporter.run prefix startTime endTime g (List.filter succeeded ticks).
Proof.
  revert g. induction ticks as [|i rest IH]; intros g; [reflexivity|].
  cbn [List.filter]. destruct (succeeded i) eqn:Hs.
  - rewrite !run_cons. apply IH.
  - rewrite run_cons, tick_failed by now apply succeeded_false_snd.
    apply IH.
Qed.

(** The gauge of the loop with its log is the gauge of the loop. *)
Lemma tick_log_gauge prefix s e (g : gmap string float) i :
  fst (ExporterLog.tick prefix s e g i) = Exporter.tick prefix s e g i.
Proof.
  unfold ExporterLog.tick, Exporter.tick.
  destruct (parseTime _); [|reflexivity].
  destruct (checkIndexExists _) as [b [err|]]; [reflexivity|].
  destruct (outsideWindow _ _ _); [|destruct b]; reflexivity.
Qed.

Lemma run_log_gauge prefix s e ticks (g : gmap string float) :
  fst (ExporterLog.run prefix s e g ticks) = Exporter.run prefix s e g ticks.
Proof.
  revert g. induction ticks as [|i rest IH]; intros g; [reflexivity|].
  rewrite run_cons, <- tick_log_gauge. cbn [ExporterLog.run].
  destruct (ExporterLog.tick prefix s e g i) as [g1 lines].
  specialize (IH g1).
  destruct (ExporterLog.run prefix s e g1 rest) as [g2 more]. exact IH.
Qed.

(** The labels after a run of the loop, for ticks that all return. *)
Lemma run_dom prefix s e (g : gmap string float) ticks :
  Forall (fun i => validClock (currentTime i)) ticks ->
  dom (Exporter.run prefix s e g ticks)
  = dom g ∪ list_to_set
              (map (fun i => indexName prefix (currentTime i))
                   (List.filter succeeded ticks)).
Proof.
  intros Hall. revert g.
  induction Hall as [|i rest Hc _ IH]; intros g.
  - cbn. now rewrite union_empty_r_L.
  - rewrite run_cons, IH. cbn [List.filter].
    destruct (succeeded i) eqn:Hs.
    + destruct (tick_succeeded prefix s e g i Hc Hs) as [v ->].
      cbn [map]. rewrite dom_insert_L, list_to_set_cons.
      rewrite (union_comm_L {[_]} (dom g)). now rewrite union_assoc_L.
    + rewrite tick_failed by now apply succeeded_false_snd. reflexivity.
Qed.

(** A tick whose request returned and whose index name the registry
    accepts continues, with the gauge and the log line of the loop body. *)
Lemma Process_tick_returned prefix s e (g : gmap string float) i :
  ValidString (indexName prefix (currentTime i)) = true ->
  Process.tick prefix s e g (Process.returned i)
  = Process.Continues (Exporter.tick prefix s e g i)
                      (snd (ExporterLog.tick prefix s e g i)).
Proof.
  intros Hv. unfold Process.tick, Process.returned, Exporter.tick, ExporterLog.tick.
  cbn [Process.currentTime Process.request].
  destruct (parseTime _); [|reflexivity].
  destruct (checkIndexExists _) as [b [err|]]; [reflexivity|].
  unfold Process.publish, Process.WithLabelValues_Set. rewrite Hv.
  destruct (outsideWindow _ _ _); [|destruct b]; reflexivity.
Qed.

Lemma Process_run_returned prefix s e ticks (g : gmap string float) :
  Forall (fun i => ValidString (indexName prefix (currentTime i)) = true) ticks ->
  Process.run prefix s e g (map Process.returned ticks)
  = Process.Continues (Exporter.run prefix s e g ticks)
                      (snd (ExporterLog.run prefix s e g ticks)).
Proof.
  intros Hall. revert g.
  induction Hall as [|i rest Hv _ IH]; intros g; [reflexivity|].
  cbn [map Process.run ExporterLog.run].
  rewrite (Process_tick_returned prefix s e g i Hv), IH, run_cons.
  rewrite <- (tick_log_gauge prefix s e g i).
  destruct (ExporterLog.tick prefix s e g i) as [g1 lines]. cbn [fst snd].
  now destruct (ExporterLog.run prefix s e g1 rest) as [g2 more].
Qed.

(** X17.  A run of the loop over ticks with working clocks, requests that
    return and index names that are valid UTF-8 goes through, and the
    labels of the gauge it ends with are exactly the labels it had before
    plus the index names of the ticks whose check succeeded: one label
    per day on which a check went through, and no other. *)
Theorem gauge_labels
    prefix startTime endTime (g : gmap string float) ticks :
  Forall (fun i => validClock (currentTime i)) ticks ->
  Forall (fun i => ValidString (indexName prefix (currentTime i)) = true) ticks ->
  exists g' lines,
    Process.run prefix startTime endTime g (map Process.returned ticks)
      = Process.Continues g' lines /\
    dom g' = dom g ∪ list_to_set
                       (map (fun i => indexName prefix (currentTime i))
                            (List.filter succeeded ticks)).
Proof.
  intros Hc Hv. eexists _, _. split.
  - now apply Process_run_returned.
  - now apply run_dom.
Qed.

Lemma gauge_labels_witness :
  exists g' lines,
    Process.run "logs-" 32400 64800 ∅
      (map Process.returned
         (mkTick (mkClock 2025 1 14 10 0) (DoResponse 404)
          :: mkTick (mkClock 2025 1 15 10 0) (DoError "timeout")
          :: mkTick (mkClock 2025 1 16 20 0) (DoResponse 200) :: nil))
      = Process.Continues g' lines /\
    dom g' = dom (∅ : gmap string float)
             ∪ list_to_set ("logs-2025.01.14"%string :: "logs-2025.01.16"%string :: nil).
Proof.
  apply (gauge_labels "logs-" 32400 64800 ∅
           (mkTick (mkClock 2025 1 14 10 0) (DoResponse 404)
            :: mkTick (mkClock 2025 1 15 10 0) (DoError "timeout")
            :: mkTick (mkClock 2025 1 16 20 0) (DoResponse 200) :: nil)).
  - repeat constructor; simpl; lia.
  - repeat constructor.
Defined.

Lemma tick_size prefix s e (g : gmap string float) i :
  (size (Exporter.tick prefix s e g i) <= S (size g))%nat.
Proof.
  destruct (tick_cases prefix s e g i) as [->|(v & _ & ->)]; [lia|].
  rewrite map_size_insert. destruct (g !! _); unfold id; lia.
Qed.

Lemma run_size prefix s e ticks (g : gmap string float) :
  (size (Exporter.run prefix s e g ticks)
   <= size g + length (List.filter succeeded ticks))%nat.
Proof.
  revert g. induction ticks as [|i rest IH]; intros g; [cbn; lia|].
  rewrite run_cons. cbn [List.filter].
  destruct (succeeded i) eqn:Hs.
  - etransitivity; [apply IH|]. cbn [length].
    pose proof (tick_size prefix s e g i). lia.
  - rewrite tick_failed by now apply succeeded_false_snd. apply IH.
Qed.

(** X18.  The gauge never holds more labels than there were successful
    ticks: from the empty state its size is at most their number. *)
Theorem gauge_size_bound prefix startTime endTime ticks :
  (size (Exporter.run prefix startTime endTime ∅ ticks)
   <= length (List.filter succeeded ticks))%nat.
Proof.
  pose proof (run_size prefix startTime endTime ticks ∅) as H.
  now rewrite map_size_empty in H.
Qed.

(** With a working clock a tick logs one line when its check failed and
    none otherwise. *)
Lemma tick_log_lines prefix s e (g : gmap string float) i :
  validClock (currentTime i) ->
  length (snd (ExporterLog.tick prefix s e g i))
    = if succeeded i then 0%nat else 1%nat.
Proof.
  intros Hc. unfold ExporterLog.tick, succeeded.
  rewrite (parseTime_Format _ Hc).
  destruct (checkIndexExists _) as [b [err|]]; [reflexivity|].
  destruct (outsideWindow _ _ _); [|destruct b]; reflexivity.
Qed.



(** X20.  No failure goes unlogged and nothing else is logged: after any
    sequence of ticks the log has one line for each tick whose check
    failed, and the gauge is the one the loop without the log computes. *)
Theorem log_counts_failures prefix startTime endTime (g : gmap string float) ticks :
  Forall (fun i => validClock (currentTime i)) ticks ->
  fst (ExporterLog.run prefix startTime endTime g ticks)
    = Exporter.run prefix startTime endTime g ticks /\
  length (snd (ExporterLog.run prefix startTime endTime g ticks))
    = length (List.filter (fun i => negb (succeeded i)) ticks).
Proof.
  intros Hall. split; [apply run_log_gauge|]. revert g.
  induction Hall as [|i rest Hc _ IH]; intros g; [reflexivity|].
  cbn [ExporterLog.run List.filter].
  pose proof (tick_log_lines prefix startTime endTime g i Hc) as Hl.
  destruct (ExporterLog.tick prefix startTime endTime g i) as [g1 lines].
  specialize (IH g1).
  destruct (ExporterLog.run prefix startTime endTime g1 rest) as [g2 more].
  cbn [snd] in *. rewrite length_app, IH, Hl.
  now destruct (succeeded i).
Qed.

Lemma log_counts_failures_witness :
  length (snd (ExporterLog.run "logs-" 32400 64800 ∅
                 (mkTick (mkClock 2025 1 15 10 0) (DoError "timeout")
                  :: mkTick (mkClock 2025 1 15 10 1) (DoResponse 200)
                  :: mkTick (mkClock 2025 1 15 10 2) (DoError "reset") :: nil)))
  = 2%nat.
Proof.
  apply (log_counts_failures "logs-" 32400 64800 ∅
           (mkTick (mkClock 2025 1 15 10 0) (DoError "timeout")
            :: mkTick (mkClock 2025 1 15 10 1) (DoResponse 200)
            :: mkTick (mkClock 2025 1 15 10 2) (DoError "reset") :: nil)).
  repeat constructor; simpl; lia.
Defined.

(** ** Index names the registry accepts *)

Lemma append_cons c (a b : string) : String c a +:+ b = String c (a +:+ b).
Proof. reflexivity. Qed.

(** Appending to a valid string does not disturb it: what follows is
    judged on its own. *)
Lemma ValidString_app_bounded n (a b : string) :
  (String.length a <= n)%nat ->
  ValidString a = true -> ValidString (a +:+ b) = ValidString b.
Proof.
  revert a. induction n as [|n IH]; intros a Hlen Hv.
  - destruct a; [reflexivity|cbn in Hlen; lia].
  - destruct a as [|c0 a1]; [reflexivity|].
    rewrite append_cons. cbn [ValidString] in *. cbn [String.length] in Hlen.
    destruct (nat_of_ascii c0 <? 128)%nat; [apply IH; [lia|exact Hv]|].
    destruct a1 as [|c1 a2]; [discriminate|].
    rewrite append_cons. cbn [String.length] in Hlen.
    destruct (inRange 194 223 c0).
    { apply andb_true_iff in Hv. destruct Hv as [-> Hv].
      apply IH; [lia|exact Hv]. }
    destruct a2 as [|c2 a3]; [discriminate|].
    rewrite append_cons. cbn [String.length] in Hlen.
    destruct (inRange 224 239 c0).
    { apply andb_true_iff in Hv. destruct Hv as [Hv Hv3].
      rewrite Hv. apply IH; [lia|exact Hv3]. }
    destruct a3 as [|c3 a4]; [discriminate|].
    rewrite append_cons. cbn [String.length] in Hlen.
    apply andb_true_iff in Hv. destruct Hv as [Hv Hv4].
    rewrite Hv. apply IH; [lia|exact Hv4].
Qed.

Lemma ValidString_app (a b : string) :
  ValidString a = true -> ValidString (a +:+ b) = ValidString b.
Proof. apply (ValidString_app_bounded (String.length a)). lia. Qed.

Lemma ValidString_digit d (s : string) :
  0 <= d <= 9 -> ValidString (String (digitChar d) s) = ValidString s.
Proof.
  intros Hd. destruct (digitChar_digit d Hd) as [Hi _].
  unfold isDigit in Hi. apply andb_true_iff in Hi. destruct Hi as [_ Hhi].
  apply Nat.leb_le in Hhi. cbn [ValidString].
  destruct (Nat.ltb_spec (nat_of_ascii (digitChar d)) 128); [reflexivity|lia].
Qed.

Lemma ValidString_date c :
  validDate c -> ValidString (Format_2006_01_02 c) = true.
Proof.
  intros V. rewrite (Format_2006_01_02_chars c V).
  destruct V as (Hy & Hm & Hd).
  rewrite !ValidString_digit by div_facts.
  change (ValidString (String "." ?s)) with (ValidString s).
  rewrite !ValidString_digit by div_facts.
  change (ValidString (String "." ?s)) with (ValidString s).
  rewrite !ValidString_digit by div_facts. reflexivity.
Qed.

(** X21.  With a prefix that is valid UTF-8 and a date with a four-digit
    year, the index name is valid UTF-8, so that no tick panics in
    [WithLabelValues], whatever the clock shows and the store answers. *)
Theorem valid_prefix_never_panics
    prefix startTime endTime (g : gmap string float) (i : Process.TickInput) :
  ValidString prefix = true ->
  validDate (Process.currentTime i) ->
  ValidString (indexName prefix (Process.currentTime i)) = true /\
  forall label, Process.tick prefix startTime endTime g i <> Process.Panics label.
Proof.
  intros Hp Hd.
  assert (Hv : ValidString (indexName prefix (Process.currentTime i)) = true).
  { unfold indexName. rewrite ValidString_app by exact Hp.
    now apply ValidString_date. }
  split; [exact Hv|]. intros label. unfold Process.tick.
  destruct (parseTime _); [|discriminate].
  destruct (Process.request i) as [r|]; [|discriminate].
  destruct (checkIndexExists r) as [b [err|]]; [discriminate|].
  unfold Process.publish, Process.WithLabelValues_Set. rewrite Hv.
  destruct (outsideWindow _ _ _); [|destruct b]; discriminate.
Qed.

Lemma valid_prefix_never_panics_witness :
  ValidString (indexName "logs-" (mkClock 2025 1 15 10 0)) = true /\
  forall label,
    Process.tick "logs-" 32400 64800 ∅
      (Process.mkTick (mkClock 2025 1 15 10 0) (Some (DoResponse 200)))
    <> Process.Panics label.
Proof.
  apply (valid_prefix_never_panics "logs-" 32400 64800 ∅
           (Process.mkTick (mkClock 2025 1 15 10 0) (Some (DoResponse 200))));
    [reflexivity | unfold validDate; simpl; lia].
Defined.
